(** * Stripe webhook controller of the payments plugin

    Shallow embedding of
    [packages/payments-plugin/src/stripe/stripe.controller.ts]:
    the [StripeController.webhook] handler with its two private helpers
    [createContext] and [getPaymentMethod].

    The handler is effectful: it logs, writes to the HTTP response and
    awaits four injected services.  It is modelled in a state and exception
    monad whose state is the world the services act on together with the
    trace of everything the handler did, in program order.  The services
    themselves ([StripeService], [ChannelService], [OrderService], the
    connection) live outside this file of the plugin and are parameters, as
    are the two imported constants [loggerCtx] and
    [stripePaymentMethodHandler.code]. *)

From Stdlib Require Import ZArith Lia.
From stdpp Require Import base strings list gmap.

Local Open Scope Z_scope.


(** ** Data of the Stripe SDK, as far as the handler reads it *)

(** [paymentIntent.last_payment_error?.message] *)
Record LastPaymentError := mkLastPaymentError {
  lpe_message : option string
}.

(** [Stripe.PaymentIntent]: [metadata] is a string-to-string mapping and may
    be [undefined] (the handler gives it the default [{}]). *)
Record PaymentIntent := mkPaymentIntent {
  pi_id : string;
  pi_metadata : option (gmap string string);
  pi_last_payment_error : option LastPaymentError
}.

(** [event.data.object] as the handler sees it.  The handler casts it to
    [Stripe.PaymentIntent] without a check, so it is whatever object the
    event carries.  [Intent] is an object as the type describes it, its
    [metadata] a mapping or [undefined].  [NullMetadata] is an object whose
    [metadata] is [null], as objects of other event types may have it: of
    such an object the handler reads [metadata] and nothing else. *)
Inductive DataObject :=
| Intent (paymentIntent : PaymentIntent)
| NullMetadata (id : string) (last_payment_error : option LastPaymentError).

(** [Stripe.Event]: [ev_data_object] is [event.data.object]; [None] stands for
    a falsy value, which the handler tests with [!paymentIntent]. *)
Record Event := mkEvent {
  ev_type : string;
  ev_data_object : option DataObject
}.

(** ** Data of the core library *)

Inductive ApiType := admin | shop | custom.

(** [LanguageCode] is a string enum; [LanguageCode.en] is its only member the
    controller uses. *)
Inductive LanguageCode := en | other_language (code : string).

(** [PaymentMethod]: [pm_code] is [m.code], [pm_handler_code] is
    [m.handler.code]. *)
Record PaymentMethod := mkPaymentMethod {
  pm_code : string;
  pm_handler_code : string
}.

(** The input of [addPaymentToOrder]:
    [{ method, metadata: { paymentIntentId } }]. *)
Record PaymentInput := mkPaymentInput {
  method : string;
  paymentIntentId : string
}.

(** What a call can throw.  [InternalServerError] is the one the controller
    itself raises; [ServiceFault] is anything thrown by a collaborator
    (its [message]); [TypeError] is the one the language raises. *)
Inductive Exn :=
| InternalServerError (message : string)
| ServiceFault (message : string)
| TypeError (message : string).

Definition exn_message (e : Exn) : string :=
  match e with
  | InternalServerError m => m
  | ServiceFault m => m
  | TypeError m => m
  end.

(** Outcome of a call: a value, or an exception that propagates. *)
Inductive Res (A : Type) :=
| Val (a : A)
| Thrown (e : Exn).
Arguments Val {A} a.
Arguments Thrown {A} e.

Inductive Level := LError | LWarn | LInfo.

Module HttpStatus.
Definition BAD_REQUEST : Z := 400.
End HttpStatus.

(** ** Constants of the controller *)

Definition missingHeaderErrorMessage : string :=
  "Missing stripe-signature header".
Definition signatureErrorMessage : string :=
  "Error verifying Stripe webhook signature".
Definition noPaymentIntentErrorMessage : string :=
  "No payment intent in the event payload".

(** ** JavaScript conventions the handler relies on *)

(** A value interpolated in a template literal; [undefined] prints as the
    word. *)
Definition render (v : option string) : string :=
  match v with
  | Some s => s
  | None => "undefined"
  end.

(** [!signature] for [signature: string | undefined]: the empty string is
    falsy too. *)
Definition falsy (v : option string) : bool :=
  match v with
  | None => true
  | Some s => (s =? "")%string
  end.

(** The [TypeError] of destructuring [null]: the [= {}] default of
    [const { metadata: { channelToken, orderCode, orderId } = {} } = paymentIntent]
    stands in for [undefined] only.  The text is the engine's; no property
    below depends on it. *)
Definition destructuringErrorMessage : string :=
  "Cannot destructure property 'channelToken' of 'paymentIntent.metadata' as it is null.".

(** A key of [metadata], with the [= {}] default of the destructuring. *)
Definition meta (paymentIntent : PaymentIntent) (key : string) : option string :=
  match pi_metadata paymentIntent with
  | Some m => m !! key
  | None => None
  end.

(** ** Vocabulary of the properties *)

(** 4xx *)
Definition client_error (status : Z) : Prop := 400 <= status < 500.

(** 2xx *)
Definition success_status (status : Z) : Prop := 200 <= status < 300.

(** [part] occurs in [message]. *)
Definition mentions (message part : string) : Prop :=
  ∃ before after, message = before +:+ part +:+ after.

(** The calls a delivery can make, by the service operation called. *)
Inductive Call := CVerify | CResolve | CTransition | CFind | CAddPayment.

Section Controller.

(** Types of the core library that the controller only passes around. *)
Context {Channel Order World RawBody : Type}.

(** Constants imported from [./constants] and [./stripe.handler]. *)
Variable loggerCtx : string.
Variable stripePaymentMethodHandler_code : string.

Record RequestContext := mkRequestContext {
  apiType : ApiType;
  isAuthorized : bool;
  authorizedAsOwnerOnly : bool;
  channel : Channel;
  languageCode : LanguageCode
}.

(** [transitionToState] returns the order or an
    [OrderStateTransitionError]. *)
Inductive TransitionResult :=
| TransitionOrder (o : Order)
| OrderStateTransitionError (message : string).

(** [addPaymentToOrder] returns the order or one of its error results, all
    of which carry a [message]. *)
Inductive AddPaymentResult :=
| PaymentOrder (o : Order)
| AddPaymentError (message : string).

(** The injected services.  Verification is a function of the payload and
    the header (the secret lives in the service); the two lookups read the
    world; the two order operations read and change it. *)
Record Services := mkServices {
  constructEventFromPayload : RawBody → string → Res Event;
  getChannelFromToken : option string → World → Res Channel;
  findPaymentMethods : RequestContext → World → Res (list PaymentMethod);
  transitionToState :
    RequestContext → option string → string → World → Res TransitionResult * World;
  addPaymentToOrder :
    RequestContext → option string → PaymentInput → World → Res AddPaymentResult * World
}.

(** Everything the handler does that is visible outside it, in order: log
    entries, the response it sends, and each service call with what the
    call returned. *)
Inductive Effect :=
| ELog (level : Level) (message : string) (context : string)
| ERespond (status : Z) (body : string)
| EVerify (rawBody : RawBody) (signature : string) (r : Res Event)
| EResolve (channelToken : option string) (r : Res Channel)
| ETransition (ctx : RequestContext) (orderId : option string) (state : string)
              (r : Res TransitionResult)
| EFind (ctx : RequestContext) (r : Res (list PaymentMethod))
| EAddPayment (ctx : RequestContext) (orderId : option string)
              (input : PaymentInput) (r : Res AddPaymentResult).

Record State := mkState {
  world : World;
  effects : list Effect
}.

(** The handler monad. *)
Definition Handler (A : Type) : Type := State → Res A * State.

Definition ret {A} (a : A) : Handler A := λ s, (Val a, s).

Definition bind {A B} (m : Handler A) (k : A → Handler B) : Handler B :=
  λ s, match m s with
       | (Val a, s') => k a s'
       | (Thrown e, s') => (Thrown e, s')
       end.

Definition throw {A} (e : Exn) : Handler A := λ s, (Thrown e, s).

Definition emit (e : Effect) : Handler unit :=
  λ s, (Val tt, mkState (world s) (effects s ++ [e])).

Notation "'do' x <- m ; k" := (bind m (λ x, k))
  (at level 10, x name, m at level 100, k at level 200).
Notation "'run' m ; k" := (bind m (λ _, k))
  (at level 10, m at level 100, k at level 200).

Variable svc : Services.

(** *** Logger and response *)

Definition Logger_error (message : string) : Handler unit :=
  emit (ELog LError message loggerCtx).
Definition Logger_warn (message : string) : Handler unit :=
  emit (ELog LWarn message loggerCtx).
Definition Logger_info (message : string) : Handler unit :=
  emit (ELog LInfo message loggerCtx).

(** [response.status(status).send(body)] *)
Definition response_send (status : Z) (body : string) : Handler unit :=
  emit (ERespond status body).

(** *** Service calls, each recorded with its result *)

(** The call sits in a [try]: its exception is handed to the caller as a
    value. *)
Definition call_constructEventFromPayload (rawBody : RawBody) (signature : string)
  : Handler (Res Event) :=
  let r := constructEventFromPayload svc rawBody signature in
  run emit (EVerify rawBody signature r); ret r.

Definition call_getChannelFromToken (channelToken : option string) : Handler Channel :=
  λ s, let r := getChannelFromToken svc channelToken (world s) in
       (r, mkState (world s) (effects s ++ [EResolve channelToken r])).

Definition call_findPaymentMethods (ctx : RequestContext) : Handler (list PaymentMethod) :=
  λ s, let r := findPaymentMethods svc ctx (world s) in
       (r, mkState (world s) (effects s ++ [EFind ctx r])).

Definition call_transitionToState (ctx : RequestContext) (orderId : option string)
    (state : string) : Handler TransitionResult :=
  λ s, let '(r, w) := transitionToState svc ctx orderId state (world s) in
       (r, mkState w (effects s ++ [ETransition ctx orderId state r])).

Definition call_addPaymentToOrder (ctx : RequestContext) (orderId : option string)
    (input : PaymentInput) : Handler AddPaymentResult :=
  λ s, let '(r, w) := addPaymentToOrder svc ctx orderId input (world s) in
       (r, mkState w (effects s ++ [EAddPayment ctx orderId input r])).

(** *** [createContext] *)

Definition createContext (channelToken : option string) : Handler RequestContext :=
  do channel <- call_getChannelFromToken channelToken;
  ret (mkRequestContext admin true false channel en).

(** *** [getPaymentMethod] *)

Definition getPaymentMethod (ctx : RequestContext) : Handler PaymentMethod :=
  do methods <- call_findPaymentMethods ctx;
  match List.find (λ m, (pm_handler_code m =? stripePaymentMethodHandler_code)%string)
                  methods with
  | None =>
      throw (InternalServerError
               ("[" +:+ loggerCtx +:+ "] Could not find Stripe PaymentMethod"))
  | Some method => ret method
  end.

(** *** [webhook] *)

Definition webhook (signature : option string) (rawBody : RawBody) : Handler unit :=
  if falsy signature then
    run Logger_error missingHeaderErrorMessage;
    response_send HttpStatus.BAD_REQUEST missingHeaderErrorMessage
  else
    let signature := default "" signature in
    do r <- call_constructEventFromPayload rawBody signature;
    match r with
    | Thrown e =>
        run Logger_error
          (signatureErrorMessage +:+ " " +:+ signature +:+ ": " +:+ exn_message e);
        response_send HttpStatus.BAD_REQUEST signatureErrorMessage
    | Val event =>
        match ev_data_object event with
        | None =>
            run Logger_error noPaymentIntentErrorMessage;
            response_send HttpStatus.BAD_REQUEST noPaymentIntentErrorMessage
        | Some (NullMetadata _ _) => throw (TypeError destructuringErrorMessage)
        | Some (Intent paymentIntent) =>
            let channelToken := meta paymentIntent "channelToken" in
            let orderCode := meta paymentIntent "orderCode" in
            let orderId := meta paymentIntent "orderId" in
            if (ev_type event =? "payment_intent.payment_failed")%string then
              let message :=
                match pi_last_payment_error paymentIntent with
                | Some err => lpe_message err
                | None => None
                end in
              Logger_warn
                ("Payment for order " +:+ render orderCode +:+ " failed: "
                 +:+ render message)
            else if negb (ev_type event =? "payment_intent.succeeded")%string then
              Logger_info
                ("Received " +:+ ev_type event +:+ " status update for order "
                 +:+ render orderCode)
            else
              do ctx <- createContext channelToken;
              do transitionToStateResult <-
                call_transitionToState ctx orderId "ArrangingPayment";
              match transitionToStateResult with
              | OrderStateTransitionError message =>
                  Logger_error
                    ("Error transitioning order " +:+ render orderCode
                     +:+ " to ArrangingPayment state: " +:+ message)
              | TransitionOrder _ =>
                  do paymentMethod <- getPaymentMethod ctx;
                  do addPaymentToOrderResult <-
                    call_addPaymentToOrder ctx orderId
                      (mkPaymentInput (pm_code paymentMethod) (pi_id paymentIntent));
                  match addPaymentToOrderResult with
                  | AddPaymentError message =>
                      Logger_error
                        ("Error adding payment to order " +:+ render orderCode
                         +:+ ": " +:+ message)
                  | PaymentOrder _ =>
                      Logger_info
                        ("Stripe payment intent id " +:+ pi_id paymentIntent
                         +:+ " added to order " +:+ render orderCode)
                  end
              end
        end
    end.

(** *** One delivery

    Every delivery is handled on its own: the trace starts empty and the
    world is whatever earlier deliveries left. *)

Definition deliver (signature : option string) (rawBody : RawBody) (w : World)
  : Res unit * State :=
  webhook signature rawBody (mkState w []).

(** *** Reading a trace *)

(** A call to the signature verifier. *)
Definition is_verification (e : Effect) : bool :=
  match e with
  | EVerify _ _ _ => true
  | _ => false
  end.

(** A call to the order service: the state transition or the payment. *)
Definition is_order_call (e : Effect) : bool :=
  match e with
  | ETransition _ _ _ _ | EAddPayment _ _ _ _ => true
  | _ => false
  end.

(** Any call past verification: tenant resolution, the handler lookup or the
    order service. *)
Definition is_downstream_call (e : Effect) : bool :=
  match e with
  | EResolve _ _ | EFind _ _ => true
  | _ => is_order_call e
  end.

(** The payment call alone. *)
Definition is_payment_call (e : Effect) : bool :=
  match e with
  | EAddPayment _ _ _ _ => true
  | _ => false
  end.

Definition is_response (e : Effect) : bool :=
  match e with
  | ERespond _ _ => true
  | _ => false
  end.

Definition is_log (e : Effect) : bool :=
  match e with
  | ELog _ _ _ => true
  | _ => false
  end.

(** The sender was answered with a 4xx. *)
Definition rejected (trace : list Effect) : Prop :=
  ∃ status body, ERespond status body ∈ trace ∧ client_error status.

(** The sender was answered with a 2xx. *)
Definition accepted (trace : list Effect) : Prop :=
  ∃ status body, ERespond status body ∈ trace ∧ success_status status.

(** The operation a trace entry is a call of. *)
Definition call_of (e : Effect) : option Call :=
  match e with
  | EVerify _ _ _ => Some CVerify
  | EResolve _ _ => Some CResolve
  | ETransition _ _ _ _ => Some CTransition
  | EFind _ _ => Some CFind
  | EAddPayment _ _ _ _ => Some CAddPayment
  | _ => None
  end.

(** The calls of a trace, in order. *)
Definition calls (trace : list Effect) : list Call := omap call_of trace.

(** The exception a recorded call ended with, when it threw. *)
Definition thrown_by (e : Effect) : option Exn :=
  match e with
  | EVerify _ _ (Thrown x) | EResolve _ (Thrown x) | ETransition _ _ _ (Thrown x)
  | EFind _ (Thrown x) | EAddPayment _ _ _ (Thrown x) => Some x
  | _ => None
  end.

(** The request contexts the handler handed to its collaborators. *)
Definition contexts_used (e : Effect) : list RequestContext :=
  match e with
  | ETransition ctx _ _ _ | EFind ctx _ | EAddPayment ctx _ _ _ => [ctx]
  | _ => []
  end.

End Controller.

Arguments RequestContext : clear implicits.
Arguments TransitionResult : clear implicits.
Arguments AddPaymentResult : clear implicits.
Arguments Services : clear implicits.
Arguments Effect : clear implicits.
Arguments State : clear implicits.

(** ** A small deployment to run the handler on

    Stand-ins for the four services, with one order and one tenant: enough
    to evaluate the handler on concrete deliveries.  They are not part of
    the controller; the properties below hold for any services. *)

Module Demo.

Record World := mkWorld {
  order_state : string;
  payment_ids : list string
}.

Definition loggerCtx : string := "StripePlugin".
Definition handler_code : string := "stripe".

Definition ctx_t := RequestContext string.

Definition verify (rawBody : Event) (signature : string) : Res Event :=
  if (signature =? "t=1,v1=good")%string then Val rawBody
  else Thrown (ServiceFault "No signatures found matching the expected signature").

Definition resolve (token : option string) (w : World) : Res string :=
  match token with
  | Some t => if (t =? "t1")%string then Val "channel-1"
              else Thrown (ServiceFault "channel not found")
  | None => Val "default-channel"
  end.

Definition transition (ctx : ctx_t) (orderId : option string) (state : string)
    (w : World) : Res (TransitionResult unit) * World :=
  if (order_state w =? "AddingItems")%string || (order_state w =? state)%string
  then (Val (TransitionOrder tt), mkWorld state (payment_ids w))
  else (Val (OrderStateTransitionError
               ("Cannot transition Order from " +:+ order_state w +:+ " to " +:+ state)),
        w).

Definition add_payment (ctx : ctx_t) (orderId : option string) (input : PaymentInput)
    (w : World) : Res (AddPaymentResult unit) * World :=
  if bool_decide (paymentIntentId input ∈ payment_ids w)
  then (Val (AddPaymentError "Payment already recorded"), w)
  else (Val (PaymentOrder tt),
        mkWorld "PaymentSettled" (payment_ids w ++ [paymentIntentId input])).

Definition methods (configured : bool) (ctx : ctx_t) (w : World)
  : Res (list PaymentMethod) :=
  Val (mkPaymentMethod "standard-payment" "dummy"
       :: if configured then [mkPaymentMethod "stripe-payment" "stripe"] else []).

Definition services (configured : bool) : Services string unit World Event :=
  mkServices verify resolve (methods configured) transition add_payment.

Definition metadata_full : gmap string string :=
  <["channelToken" := "t1"]> (<["orderId" := "42"]> (<["orderCode" := "ABC"]> ∅)).

Definition intent (md : option (gmap string string)) : PaymentIntent :=
  mkPaymentIntent "pi_123" md (Some (mkLastPaymentError (Some "card_declined"))).

Definition metadata_no_order : gmap string string :=
  <["channelToken" := "t1"]> (<["orderCode" := "ABC"]> ∅).

Definition fresh : World := mkWorld "AddingItems" [].

Definition good_signature : string := "t=1,v1=good".

(** Deliveries: the payload is given as the event it parses to. *)
Definition succeeded_event : Event :=
  mkEvent "payment_intent.succeeded" (Some (Intent (intent (Some metadata_full)))).
Definition failed_event : Event :=
  mkEvent "payment_intent.payment_failed" (Some (Intent (intent (Some metadata_full)))).
Definition refund_event : Event :=
  mkEvent "charge.refunded" (Some (Intent (intent (Some metadata_full)))).
Definition uncorrelated_event : Event :=
  mkEvent "payment_intent.succeeded" (Some (Intent (intent (Some metadata_no_order)))).

Definition system_context : ctx_t := mkRequestContext admin true false "channel-1" en.

(** A verified event with no [data.object]. *)
Definition empty_event : Event := mkEvent "payment_intent.succeeded" None.

(** An event of a type the webhook is not configured for, whose object (an
    invoice) has [metadata: null]. *)
Definition invoice_event : Event :=
  mkEvent "invoice.paid" (Some (NullMetadata "in_123" None)).

(** A succeeded event of a tenant the channel service does not know. *)
Definition stranger_event : Event :=
  mkEvent "payment_intent.succeeded"
    (Some (Intent (intent (Some (<["channelToken" := "t9"]> metadata_full))))).


(** An order whose payment was recorded while it went back to adding items. *)
Definition reopened : World := mkWorld "AddingItems" ["pi_123"].

(** The world after the succeeded delivery was handled once. *)
Definition settled : World := mkWorld "PaymentSettled" ["pi_123"].

Definition stripe_method : PaymentMethod := mkPaymentMethod "stripe-payment" "stripe".
Definition dummy_method : PaymentMethod := mkPaymentMethod "standard-payment" "dummy".

Definition payment_input : PaymentInput := mkPaymentInput "stripe-payment" "pi_123".

Definition handle (configured : bool) (signature : option string) (body : Event)
    (w : World) :=
  deliver loggerCtx handler_code (services configured) signature body w.

End Demo.


(** * Properties of the handler *)

Section Properties.

Context {Channel Order World RawBody : Type}.
Variable loggerCtx : string.
Variable stripePaymentMethodHandler_code : string.
Variable svc : Services Channel Order World RawBody.

Abbreviation handle := (deliver loggerCtx stripePaymentMethodHandler_code svc).
Abbreviation context_for := (createContext svc).
Abbreviation system_context ch := (mkRequestContext admin true false ch en).
Abbreviation is_stripe :=
  (λ m, (pm_handler_code m =? stripePaymentMethodHandler_code)%string).

Ltac unfold_handler :=
  unfold deliver, webhook, createContext, getPaymentMethod,
    call_constructEventFromPayload, call_getChannelFromToken,
    call_findPaymentMethods, call_transitionToState, call_addPaymentToOrder,
    Logger_error, Logger_warn, Logger_info, response_send, emit, bind, ret, throw.

Ltac unfold_handler_in H :=
  unfold deliver, webhook, createContext, getPaymentMethod,
    call_constructEventFromPayload, call_getChannelFromToken,
    call_findPaymentMethods, call_transitionToState, call_addPaymentToOrder,
    Logger_error, Logger_warn, Logger_info, response_send, emit, bind, ret, throw
    in H.

(** [H : e ∈ trace] for an explicit [trace] none of whose entries is [e]. *)
Ltac absent H :=
  repeat (apply elem_of_cons in H as [H|H]; [discriminate H|]);
  by apply elem_of_nil in H.

(** [H : before ++ e :: after = trace] for an explicit [trace]: one case for
    each position of [e]. *)
Ltac positions H :=
  repeat match type of H with
         | ?b ++ _ :: _ = _ =>
             destruct b as [|? b]; simpl in H;
             [injection H as H ?|injection H as ? H]; subst
         | [] ++ _ :: _ = [] => discriminate H
         | ?b ++ _ :: _ = [] => destruct b; discriminate H
         end.

(** ** Strings *)

Lemma append_assoc (a b c : string) : (a +:+ b) +:+ c = a +:+ b +:+ c.
Proof.
  induction a as [|x a IH]; [reflexivity|].
  change (String x ((a +:+ b) +:+ c) = String x (a +:+ b +:+ c)). by rewrite IH.
Qed.

Lemma append_nil_r (a : string) : a +:+ "" = a.
Proof.
  induction a as [|x a IH]; [reflexivity|].
  change (String x (a +:+ "") = String x a). by rewrite IH.
Qed.

Lemma mentions_suffix (before part : string) : mentions (before +:+ part) part.
Proof. exists before, "". by rewrite append_nil_r. Qed.

Lemma mentions_prepend (a message part : string) :
  mentions message part → mentions (a +:+ message) part.
Proof.
  intros (before & after & ->). exists (a +:+ before), after.
  by rewrite append_assoc.
Qed.

(** ** The steps before reconciliation *)

Lemma truthy_signature (sig : string) : sig ≠ "" → falsy (Some sig) = false.
Proof. intros H. simpl. by apply String.eqb_neq. Qed.

(** C7: with no signature header the handler logs the error and answers 400
    with the missing-header message; that is all it does: the verifier is
    not called, nor is anything behind it, and the world is untouched. *)
Theorem missing_signature_rejected (rawBody : RawBody) (w : World) :
  handle None rawBody w
  = (Val tt, mkState w [ELog LError missingHeaderErrorMessage loggerCtx;
                        ERespond HttpStatus.BAD_REQUEST missingHeaderErrorMessage])
  ∧ rejected (effects (handle None rawBody w).2)
  ∧ Forall (λ e, is_verification e = false ∧ is_downstream_call e = false)
           (effects (handle None rawBody w).2).
Proof.
  split; [reflexivity|]. split.
  - exists HttpStatus.BAD_REQUEST, missingHeaderErrorMessage. split.
    + unfold_handler. simpl. set_solver.
    + unfold client_error, HttpStatus.BAD_REQUEST. lia.
  - unfold_handler. simpl. repeat constructor.
Qed.

(** X1: a signature that does not verify is answered 400 with the signature
    error message.  The verifier's exception is caught: the handler returns
    normally, after one error entry that carries the received signature and
    the exception's message; nothing downstream is called and the world is
    untouched. *)
Lemma bad_signature_rejected (sig : string) (rawBody : RawBody) (fault : Exn)
    (w : World) :
  sig ≠ "" →
  constructEventFromPayload svc rawBody sig = Thrown fault →
  handle (Some sig) rawBody w
  = (Val tt,
     mkState w [EVerify rawBody sig (Thrown fault);
                ELog LError (signatureErrorMessage +:+ " " +:+ sig +:+ ": "
                             +:+ exn_message fault) loggerCtx;
                ERespond HttpStatus.BAD_REQUEST signatureErrorMessage]).
Proof.
  intros Hsig Hver. unfold_handler.
  rewrite (truthy_signature _ Hsig). simpl. by rewrite Hver.
Qed.

(** X2: a verified event without a payment intent is answered 400 with the
    no-payment-intent message, whatever its type; nothing downstream is
    called and the world is untouched. *)
Lemma no_payment_intent_rejected (sig : string) (rawBody : RawBody) (event : Event)
    (w : World) :
  sig ≠ "" →
  constructEventFromPayload svc rawBody sig = Val event →
  ev_data_object event = None →
  handle (Some sig) rawBody w
  = (Val tt, mkState w [EVerify rawBody sig (Val event);
                        ELog LError noPaymentIntentErrorMessage loggerCtx;
                        ERespond HttpStatus.BAD_REQUEST noPaymentIntentErrorMessage]).
Proof.
  intros Hsig Hver Hobj. unfold_handler.
  rewrite (truthy_signature _ Hsig). simpl. by rewrite Hver, Hobj.
Qed.

(** ** Events that are not reconciled *)

(** C3: a verified payment-failed event that carries its payment intent (a
    [VerifiedEvent] of the data model) is ignored: after the verification
    the handler writes one warning, which reads
    "Payment for order <orderCode> failed: <message>" and so contains the
    reason the gateway gave, and returns.  No call to the order service (nor
    any other downstream call) is made and the world is untouched. *)
Theorem failed_payment_ignored (sig : string) (rawBody : RawBody) (event : Event)
    (paymentIntent : PaymentIntent) (w : World) :
  sig ≠ "" →
  constructEventFromPayload svc rawBody sig = Val event →
  ev_data_object event = Some (Intent paymentIntent) →
  ev_type event = "payment_intent.payment_failed" →
  ∃ text,
    handle (Some sig) rawBody w
    = (Val tt, mkState w [EVerify rawBody sig (Val event); ELog LWarn text loggerCtx])
    ∧ text = "Payment for order " +:+ render (meta paymentIntent "orderCode")
             +:+ " failed: "
             +:+ render match pi_last_payment_error paymentIntent with
                        | Some err => lpe_message err
                        | None => None
                        end
    ∧ (∀ err reason,
         pi_last_payment_error paymentIntent = Some err →
         lpe_message err = Some reason →
         mentions text reason)
    ∧ Forall (λ e, is_downstream_call e = false) (effects (handle (Some sig) rawBody w).2).
Proof.
  intros Hsig Hver Hobj Hty. eexists. unfold_handler.
  rewrite (truthy_signature _ Hsig). simpl. rewrite Hver, Hobj, Hty. simpl.
  split; [reflexivity|]. split; [reflexivity|]. split.
  - intros err reason -> ->. simpl.
    do 2 apply mentions_prepend. apply mentions_suffix.
  - repeat constructor.
Qed.

(** X13: a verified event whose object has metadata that is a mapping or
    [undefined] (an [Intent]) and whose type is neither of the two known
    tags is ignored: one info entry naming the type, no response (so no
    rejection), no downstream call, world untouched. *)
Theorem unknown_event_ignored (sig : string) (rawBody : RawBody) (event : Event)
    (paymentIntent : PaymentIntent) (w : World) :
  sig ≠ "" →
  constructEventFromPayload svc rawBody sig = Val event →
  ev_data_object event = Some (Intent paymentIntent) →
  ev_type event ≠ "payment_intent.succeeded" →
  ev_type event ≠ "payment_intent.payment_failed" →
  handle (Some sig) rawBody w
  = (Val tt,
     mkState w [EVerify rawBody sig (Val event);
                ELog LInfo ("Received " +:+ ev_type event +:+ " status update for order "
                            +:+ render (meta paymentIntent "orderCode")) loggerCtx])
  ∧ ¬ rejected (effects (handle (Some sig) rawBody w).2)
  ∧ Forall (λ e, is_downstream_call e = false) (effects (handle (Some sig) rawBody w).2).
Proof.
  intros Hsig Hver Hobj Hs Hf.
  apply String.eqb_neq in Hs, Hf. unfold_handler.
  rewrite (truthy_signature _ Hsig). simpl. rewrite Hver, Hobj, Hf, Hs. simpl.
  split; [reflexivity|]. split.
  - intros (status & body & Hin & _). absent Hin.
  - repeat constructor.
Qed.

(** ** Reconciliation *)

(** C5: wherever the payment call stands in the trace of a delivery, the
    transition call for the same order stands before it, and it returned the
    order, not a transition error.  And wherever a transition call that
    returned a transition error stands, the handler made no payment call
    before it, and after it only wrote one error entry, which contains the
    error's message, and returned. *)
Theorem payment_follows_transition (signature : option string) (rawBody : RawBody)
    (w : World) (before after : list (Effect Channel Order RawBody))
    (e : Effect Channel Order RawBody) :
  effects (handle signature rawBody w).2 = before ++ e :: after →
  (∀ ctx orderId input r,
     e = EAddPayment ctx orderId input r →
     ∃ o before1 before2,
       before = before1
                ++ ETransition ctx orderId "ArrangingPayment" (Val (TransitionOrder o))
                :: before2)
  ∧ (∀ ctx orderId state message,
       e = ETransition ctx orderId state (Val (OrderStateTransitionError message)) →
       (handle signature rawBody w).1 = Val tt
       ∧ Forall (λ e, is_payment_call e = false) before
       ∧ ∃ text, after = [ELog LError text loggerCtx] ∧ mentions text message).
Proof.
  unfold_handler. simpl. intros H.
  repeat case_match; simpl in *; simplify_eq/=.
  all: split; intros; subst.
  all: symmetry in H; positions H; try discriminate.
  all: simplify_eq.
  - by eexists _, [_; _], [_].
  - by eexists _, [_; _], [_].
  - by eexists _, [_; _], [_].
  - split; [done|]. split; [repeat constructor|].
    eexists. split; [done|]. do 2 apply mentions_prepend. apply mentions_suffix.
Qed.

(** C1, as the code has it: a verified succeeded event whose metadata lacks
    the tenant token or the order identifier is not rejected.  The handler
    sends no response; right after verification it resolves the tenant with
    the token as read from the metadata ([None] when missing), and when that
    returns a channel it calls the transition with the order identifier as
    read ([None] when missing). *)
Theorem uncorrelated_succeeded_proceeds (sig : string) (rawBody : RawBody)
    (event : Event) (paymentIntent : PaymentIntent) (w : World) :
  sig ≠ "" →
  constructEventFromPayload svc rawBody sig = Val event →
  ev_data_object event = Some (Intent paymentIntent) →
  ev_type event = "payment_intent.succeeded" →
  meta paymentIntent "channelToken" = None ∨ meta paymentIntent "orderId" = None →
  Forall (λ e, is_response e = false) (effects (handle (Some sig) rawBody w).2)
  ∧ ∃ rest,
      effects (handle (Some sig) rawBody w).2
      = EVerify rawBody sig (Val event)
        :: EResolve (meta paymentIntent "channelToken")
             (getChannelFromToken svc (meta paymentIntent "channelToken") w)
        :: rest
      ∧ ∀ ch,
          getChannelFromToken svc (meta paymentIntent "channelToken") w = Val ch →
          ∃ r rest',
            rest = ETransition (system_context ch) (meta paymentIntent "orderId")
                     "ArrangingPayment" r :: rest'.
Proof.
  intros Hsig Hver Hobj Hty _. unfold_handler.
  rewrite (truthy_signature _ Hsig). simpl. rewrite Hver, Hobj, Hty. simpl.
  destruct (getChannelFromToken svc (meta paymentIntent "channelToken") w)
    as [ch|fault]; simpl.
  - repeat case_match; simplify_eq/=; (split; [repeat constructor|]);
      eexists; (split; [reflexivity|]); intros ? [= <-]; by eexists _, _.
  - split; [repeat constructor|]. eexists; split; [reflexivity|]. intros ? [=].
Qed.

Lemma find_no_stripe (methods : list PaymentMethod) :
  Forall (λ m, pm_handler_code m ≠ stripePaymentMethodHandler_code) methods →
  List.find is_stripe methods = None.
Proof.
  induction 1 as [|m ms Hm _ IH]; [reflexivity|]. simpl.
  apply String.eqb_neq in Hm. by rewrite Hm.
Qed.

(** C8: when a succeeded event has passed the transition and none of the
    tenant's payment methods has the Stripe handler code, the handler throws
    an [InternalServerError].  Nothing is logged, no payment call is made,
    and the delivery does not return normally, as it does on the errors of
    the order service. *)
Theorem missing_handler_is_fatal (sig : string) (rawBody : RawBody) (event : Event)
    (paymentIntent : PaymentIntent) (w w1 : World) (ch : Channel) (o : Order)
    (methods : list PaymentMethod) :
  sig ≠ "" →
  constructEventFromPayload svc rawBody sig = Val event →
  ev_data_object event = Some (Intent paymentIntent) →
  ev_type event = "payment_intent.succeeded" →
  getChannelFromToken svc (meta paymentIntent "channelToken") w = Val ch →
  transitionToState svc (system_context ch) (meta paymentIntent "orderId")
    "ArrangingPayment" w = (Val (TransitionOrder o), w1) →
  findPaymentMethods svc (system_context ch) w1 = Val methods →
  Forall (λ m, pm_handler_code m ≠ stripePaymentMethodHandler_code) methods →
  handle (Some sig) rawBody w
  = (Thrown (InternalServerError
               ("[" +:+ loggerCtx +:+ "] Could not find Stripe PaymentMethod")),
     mkState w1
       [EVerify rawBody sig (Val event);
        EResolve (meta paymentIntent "channelToken") (Val ch);
        ETransition (system_context ch) (meta paymentIntent "orderId")
          "ArrangingPayment" (Val (TransitionOrder o));
        EFind (system_context ch) (Val methods)])
  ∧ Forall (λ e, is_log e = false ∧ is_payment_call e = false)
      (effects (handle (Some sig) rawBody w).2).
Proof.
  intros Hsig Hver Hobj Hty Hch Htr Hfind Hnone.
  pose proof (find_no_stripe _ Hnone) as Hno.
  unfold_handler. rewrite (truthy_signature _ Hsig). simpl.
  rewrite Hver, Hobj, Hty. simpl. rewrite Hch. simpl. rewrite Htr. simpl.
  rewrite Hfind. simpl. rewrite Hno.
  split; [reflexivity|]. repeat constructor.
Qed.

(** C9: when the payment call returns an error result, the handler writes
    one error entry containing the result's message and returns.  The
    payment call is the last call of the delivery, and the world is left
    exactly as that call left it: one transition before it, nothing after
    it. *)
Theorem payment_error_leaves_order (sig : string) (rawBody : RawBody) (event : Event)
    (paymentIntent : PaymentIntent) (w w1 w2 : World) (ch : Channel) (o : Order)
    (methods : list PaymentMethod) (paymentMethod : PaymentMethod)
    (message : string) :
  sig ≠ "" →
  constructEventFromPayload svc rawBody sig = Val event →
  ev_data_object event = Some (Intent paymentIntent) →
  ev_type event = "payment_intent.succeeded" →
  getChannelFromToken svc (meta paymentIntent "channelToken") w = Val ch →
  transitionToState svc (system_context ch) (meta paymentIntent "orderId")
    "ArrangingPayment" w = (Val (TransitionOrder o), w1) →
  findPaymentMethods svc (system_context ch) w1 = Val methods →
  List.find is_stripe methods = Some paymentMethod →
  addPaymentToOrder svc (system_context ch) (meta paymentIntent "orderId")
    (mkPaymentInput (pm_code paymentMethod) (pi_id paymentIntent)) w1
  = (Val (AddPaymentError message), w2) →
  ∃ text,
    handle (Some sig) rawBody w
    = (Val tt,
       mkState w2
         [EVerify rawBody sig (Val event);
          EResolve (meta paymentIntent "channelToken") (Val ch);
          ETransition (system_context ch) (meta paymentIntent "orderId")
            "ArrangingPayment" (Val (TransitionOrder o));
          EFind (system_context ch) (Val methods);
          EAddPayment (system_context ch) (meta paymentIntent "orderId")
            (mkPaymentInput (pm_code paymentMethod) (pi_id paymentIntent))
            (Val (AddPaymentError message));
          ELog LError text loggerCtx])
    ∧ text = "Error adding payment to order "
             +:+ render (meta paymentIntent "orderCode") +:+ ": " +:+ message
    ∧ mentions text message.
Proof.
  intros Hsig Hver Hobj Hty Hch Htr Hfind Hpm Hadd. eexists.
  unfold_handler. rewrite (truthy_signature _ Hsig). simpl.
  rewrite Hver, Hobj, Hty. simpl. rewrite Hch. simpl. rewrite Htr. simpl.
  rewrite Hfind. simpl. rewrite Hpm. simpl. rewrite Hadd.
  split; [reflexivity|]. split; [reflexivity|].
  do 2 apply mentions_prepend. apply mentions_suffix.
Qed.

(** C10: wherever a tenant resolution that returned a channel stands in the
    trace of a delivery, [createContext] built the context
    [{apiType: admin, isAuthorized: true, authorizedAsOwnerOnly: false,
    channel, languageCode: en}] whatever the delivery held, and every call
    after it (the transition, the payment-method lookup, the payment) was
    handed exactly that context. *)
Theorem context_is_administrative (signature : option string) (rawBody : RawBody)
    (w : World) (before after : list (Effect Channel Order RawBody))
    (token : option string) (ch : Channel) :
  effects (handle signature rawBody w).2 = before ++ EResolve token (Val ch) :: after →
  context_for token (mkState w before)
  = (Val (mkRequestContext admin true false ch en),
     mkState w (before ++ [EResolve token (Val ch)]))
  ∧ ∀ e ctx,
      e ∈ after → ctx ∈ contexts_used e →
      apiType ctx = admin ∧ isAuthorized ctx = true ∧ authorizedAsOwnerOnly ctx = false
      ∧ ctx = mkRequestContext admin true false ch en.
Proof.
  intros H. unfold_handler_in H. simpl in H.
  repeat case_match; simpl in *; simplify_eq/=.
  all: symmetry in H; positions H; try discriminate.
  all: simplify_eq.
  all: unfold_handler; simpl.
  all: match goal with
       | E : getChannelFromToken _ _ _ = _ |- _ => rewrite E
       end.
  all: split; [reflexivity|].
  all: intros x ctx He Hctx.
  all: repeat (apply elem_of_cons in He as [->|He]); try by apply elem_of_nil in He.
  all: simpl in Hctx; try by apply elem_of_nil in Hctx.
  all: apply list_elem_of_singleton in Hctx as ->; done.
Qed.

(** C4: a validly signed succeeded delivery, handled twice.  Suppose the
    first handling goes through: the tenant resolves, the transition and the
    payment each return the order, a Stripe method is configured.  Suppose
    the collaborators keep their contract for a world in which the order
    already carries the payment ([already_paid]): the tenant and its payment
    methods are still found, and the transition and the payment, repeated,
    return a result (the order or an error result, not an exception) and
    leave the payment records as they are.  Then the first handling ends
    with the success entry in the log, and the second returns normally, its
    last act being a log entry, with the payment records unchanged. *)
Theorem duplicate_delivery_is_harmless {Payment : Type}
    (payments : World → list Payment) (already_paid : World → Prop)
    (sig : string) (rawBody : RawBody) (event : Event)
    (paymentIntent : PaymentIntent) (w w1 w2 : World) (ch : Channel) (o o' : Order)
    (methods : list PaymentMethod) (paymentMethod : PaymentMethod) :
  sig ≠ "" →
  constructEventFromPayload svc rawBody sig = Val event →
  ev_data_object event = Some (Intent paymentIntent) →
  ev_type event = "payment_intent.succeeded" →
  getChannelFromToken svc (meta paymentIntent "channelToken") w = Val ch →
  transitionToState svc (system_context ch) (meta paymentIntent "orderId")
    "ArrangingPayment" w = (Val (TransitionOrder o), w1) →
  findPaymentMethods svc (system_context ch) w1 = Val methods →
  List.find is_stripe methods = Some paymentMethod →
  addPaymentToOrder svc (system_context ch) (meta paymentIntent "orderId")
    (mkPaymentInput (pm_code paymentMethod) (pi_id paymentIntent)) w1
  = (Val (PaymentOrder o'), w2) →
  already_paid w2 →
  (∀ v, already_paid v →
        getChannelFromToken svc (meta paymentIntent "channelToken") v = Val ch
        ∧ findPaymentMethods svc (system_context ch) v = Val methods) →
  (∀ v, already_paid v →
        ∃ r v',
          transitionToState svc (system_context ch) (meta paymentIntent "orderId")
            "ArrangingPayment" v = (Val r, v')
          ∧ already_paid v' ∧ payments v' = payments v) →
  (∀ v, already_paid v →
        ∃ r v',
          addPaymentToOrder svc (system_context ch) (meta paymentIntent "orderId")
            (mkPaymentInput (pm_code paymentMethod) (pi_id paymentIntent)) v
          = (Val r, v')
          ∧ payments v' = payments v) →
  (∃ trace,
     handle (Some sig) rawBody w = (Val tt, mkState w2 trace)
     ∧ last trace
       = Some (ELog LInfo
                 ("Stripe payment intent id " +:+ pi_id paymentIntent
                  +:+ " added to order " +:+ render (meta paymentIntent "orderCode"))
                 loggerCtx))
  ∧ (∃ w3 trace level text,
       handle (Some sig) rawBody w2 = (Val tt, mkState w3 trace)
       ∧ last trace = Some (ELog level text loggerCtx)
       ∧ payments w3 = payments w2).
Proof.
  intros Hsig Hver Hobj Hty Hch Htr Hfind Hpm Hadd Hpaid Hlookup Htrans Hpay.
  split.
  - eexists. unfold_handler. rewrite (truthy_signature _ Hsig). simpl.
    rewrite Hver, Hobj, Hty. simpl. rewrite Hch. simpl. rewrite Htr. simpl.
    rewrite Hfind. simpl. rewrite Hpm. simpl. rewrite Hadd. by split.
  - destruct (Hlookup _ Hpaid) as [Hch2 _].
    destruct (Htrans _ Hpaid) as (r & v & Htr2 & Hpaid' & Hsame).
    unfold_handler. rewrite (truthy_signature _ Hsig). simpl.
    rewrite Hver, Hobj, Hty. simpl. rewrite Hch2. simpl. rewrite Htr2. simpl.
    destruct r as [o2|message]; simpl.
    + destruct (Hlookup _ Hpaid') as [_ Hfind2].
      destruct (Hpay _ Hpaid') as (r2 & v2 & Hadd2 & Hsame2).
      rewrite Hfind2. simpl. rewrite Hpm. simpl. rewrite Hadd2.
      destruct r2 as [o3|message]; simpl; eexists _, _, _, _;
        (split; [reflexivity|]); (split; [reflexivity|]); congruence.
    + eexists _, _, _, _. split; [reflexivity|]. by split.
Qed.

(** ** Further properties of the handler *)

(** Membership of an entry in an explicit trace, one case per position. *)
Ltac members H :=
  repeat (apply elem_of_cons in H as [H|H]; [try discriminate H|]);
  try (by apply elem_of_nil in H).

(** [List.find] takes the first Stripe method, whatever follows it. *)
Lemma find_first_stripe (before after : list PaymentMethod) (m : PaymentMethod) :
  Forall (λ x, pm_handler_code x ≠ stripePaymentMethodHandler_code) before →
  pm_handler_code m = stripePaymentMethodHandler_code →
  List.find is_stripe (before ++ m :: after) = Some m.
Proof.
  intros Hbefore Hm. induction Hbefore as [|x xs Hx _ IH]; simpl.
  - by rewrite Hm, String.eqb_refl.
  - apply String.eqb_neq in Hx. by rewrite Hx.
Qed.

Lemma find_stripe_split (methods : list PaymentMethod) (m : PaymentMethod) :
  List.find is_stripe methods = Some m →
  ∃ before after,
    methods = before ++ m :: after
    ∧ Forall (λ x, pm_handler_code x ≠ stripePaymentMethodHandler_code) before
    ∧ pm_handler_code m = stripePaymentMethodHandler_code.
Proof.
  induction methods as [|x xs IH]; simpl; [discriminate|].
  destruct (pm_handler_code x =? stripePaymentMethodHandler_code)%string eqn:Hx.
  - intros [= ->]. exists [], xs. apply String.eqb_eq in Hx. by repeat split.
  - intros Hfind. destruct (IH Hfind) as (before & after & -> & Hbefore & Hm).
    exists (x :: before), after. apply String.eqb_neq in Hx.
    split; [reflexivity|]. split; [by constructor | exact Hm].
Qed.

Lemma no_stripe_of_find (methods : list PaymentMethod) :
  List.find is_stripe methods = None →
  Forall (λ x, pm_handler_code x ≠ stripePaymentMethodHandler_code) methods.
Proof.
  induction methods as [|x xs IH]; simpl; [constructor|].
  destruct (pm_handler_code x =? stripePaymentMethodHandler_code)%string eqn:Hx;
    [discriminate|].
  intros Hfind. apply String.eqb_neq in Hx. constructor; [exact Hx | by apply IH].
Qed.

(** X3: an empty signature header is a missing one: the delivery is handled
    exactly as with no header, so it is answered 400 and the verifier is not
    called. *)
Theorem empty_signature_rejected (rawBody : RawBody) (w : World) :
  handle (Some "") rawBody w = handle None rawBody w
  ∧ rejected (effects (handle (Some "") rawBody w).2)
  ∧ Forall (λ e, is_verification e = false) (effects (handle (Some "") rawBody w).2).
Proof.
  split; [reflexivity|]. split.
  - exists HttpStatus.BAD_REQUEST, missingHeaderErrorMessage. split.
    + unfold_handler. simpl. apply list_elem_of_further, list_elem_of_here.
    + unfold client_error, HttpStatus.BAD_REQUEST. lia.
  - unfold_handler. simpl. repeat constructor.
Qed.

(** X4: a succeeded event whose every step goes through.  The handler makes
    four downstream calls, in this order: tenant resolution, the transition
    to [ArrangingPayment], the payment-method lookup and the payment.  The
    payment is added to the order of the metadata, under the code of the
    first payment method whose handler is Stripe (later ones do not matter)
    and with the payment intent's id as its metadata; the handler then
    writes one info entry and returns without sending a response. *)
Theorem succeeded_payment_recorded (sig : string) (rawBody : RawBody) (event : Event)
    (paymentIntent : PaymentIntent) (w w1 w2 : World) (ch : Channel) (o o' : Order)
    (before after : list PaymentMethod) (paymentMethod : PaymentMethod) :
  sig ≠ "" →
  constructEventFromPayload svc rawBody sig = Val event →
  ev_data_object event = Some (Intent paymentIntent) →
  ev_type event = "payment_intent.succeeded" →
  getChannelFromToken svc (meta paymentIntent "channelToken") w = Val ch →
  transitionToState svc (system_context ch) (meta paymentIntent "orderId")
    "ArrangingPayment" w = (Val (TransitionOrder o), w1) →
  findPaymentMethods svc (system_context ch) w1
  = Val (before ++ paymentMethod :: after) →
  Forall (λ x, pm_handler_code x ≠ stripePaymentMethodHandler_code) before →
  pm_handler_code paymentMethod = stripePaymentMethodHandler_code →
  addPaymentToOrder svc (system_context ch) (meta paymentIntent "orderId")
    (mkPaymentInput (pm_code paymentMethod) (pi_id paymentIntent)) w1
  = (Val (PaymentOrder o'), w2) →
  handle (Some sig) rawBody w
  = (Val tt,
     mkState w2
       [EVerify rawBody sig (Val event);
        EResolve (meta paymentIntent "channelToken") (Val ch);
        ETransition (system_context ch) (meta paymentIntent "orderId")
          "ArrangingPayment" (Val (TransitionOrder o));
        EFind (system_context ch) (Val (before ++ paymentMethod :: after));
        EAddPayment (system_context ch) (meta paymentIntent "orderId")
          (mkPaymentInput (pm_code paymentMethod) (pi_id paymentIntent))
          (Val (PaymentOrder o'));
        ELog LInfo
          ("Stripe payment intent id " +:+ pi_id paymentIntent
           +:+ " added to order " +:+ render (meta paymentIntent "orderCode"))
          loggerCtx]).
Proof.
  intros Hsig Hver Hobj Hty Hch Htr Hfind Hbefore Hpm Hadd.
  pose proof (find_first_stripe before after paymentMethod Hbefore Hpm) as Hfirst.
  unfold_handler. rewrite (truthy_signature _ Hsig). simpl.
  rewrite Hver, Hobj, Hty. simpl. rewrite Hch. simpl. rewrite Htr. simpl.
  rewrite Hfind. simpl. rewrite Hfirst. simpl. by rewrite Hadd.
Qed.

(** X5: [getPaymentMethod] returns a method exactly when the repository
    returned a list in which that method is the first one whose handler has
    the Stripe code; it then leaves the world alone and records the one
    lookup it made. *)
Theorem getPaymentMethod_first_match (ctx : RequestContext Channel)
    (s s' : State Channel Order World RawBody) (m : PaymentMethod) :
  getPaymentMethod loggerCtx stripePaymentMethodHandler_code svc ctx s = (Val m, s')
  ↔ ∃ before after,
      findPaymentMethods svc ctx (world s) = Val (before ++ m :: after)
      ∧ Forall (λ x, pm_handler_code x ≠ stripePaymentMethodHandler_code) before
      ∧ pm_handler_code m = stripePaymentMethodHandler_code
      ∧ s' = mkState (world s)
               (effects s ++ [EFind ctx (Val (before ++ m :: after))]).
Proof.
  unfold getPaymentMethod, call_findPaymentMethods, bind, ret, throw. split.
  - destruct (findPaymentMethods svc ctx (world s)) as [methods|fault];
      [|discriminate].
    destruct (List.find is_stripe methods) as [found|] eqn:Hfind; [|discriminate].
    intros [= -> <-].
    destruct (find_stripe_split _ _ Hfind) as (before & after & -> & Hbefore & Hm).
    by exists before, after.
  - intros (before & after & Hfind & Hbefore & Hm & ->).
    rewrite Hfind, (find_first_stripe before after m Hbefore Hm). reflexivity.
Qed.

(** X6: the only response the handler ever sends is a rejection.  If a
    delivery's trace holds a response, its status is 400 and its body one of
    the three error messages; it is the only response and the last thing the
    handler did; the handler returned normally, called nothing downstream
    and left the world as it was. *)
Theorem response_is_final_rejection (signature : option string) (rawBody : RawBody)
    (w : World) (status : Z) (body : string) :
  ERespond status body ∈ effects (handle signature rawBody w).2 →
  status = HttpStatus.BAD_REQUEST
  ∧ body ∈ [missingHeaderErrorMessage; signatureErrorMessage;
            noPaymentIntentErrorMessage]
  ∧ (handle signature rawBody w).1 = Val tt
  ∧ world (handle signature rawBody w).2 = w
  ∧ last (effects (handle signature rawBody w).2) = Some (ERespond status body)
  ∧ List.filter is_response (effects (handle signature rawBody w).2)
    = [ERespond status body]
  ∧ Forall (λ e, is_downstream_call e = false)
      (effects (handle signature rawBody w).2).
Proof.
  unfold_handler. simpl. intros H.
  repeat case_match; simplify_eq/=; members H.
  all: injection H as -> ->.
  all: repeat split; try reflexivity; repeat constructor.
Qed.

(** X8: where an exception that leaves the handler comes from.  Either the
    last entry of the trace is the verification, which returned an event
    whose object has [null] metadata, and the exception is the [TypeError]
    of destructuring it; or the last entry is a downstream call, and then
    either that call threw the exception, or it is the payment-method
    lookup, which returned a list with no Stripe method, and the exception
    is the handler's own [InternalServerError].  An exception thrown by the
    verifier never leaves the handler. *)
Theorem exception_comes_from_last_call (signature : option string) (rawBody : RawBody)
    (w : World) (fault : Exn) :
  (handle signature rawBody w).1 = Thrown fault →
  ∃ final,
    last (effects (handle signature rawBody w).2) = Some final
    ∧ ((∃ sig event id err,
          final = EVerify rawBody sig (Val event)
          ∧ ev_data_object event = Some (NullMetadata id err)
          ∧ fault = TypeError destructuringErrorMessage)
       ∨ (is_downstream_call final = true
          ∧ (thrown_by final = Some fault
             ∨ ∃ ctx methods,
                 final = EFind ctx (Val methods)
                 ∧ Forall (λ x, pm_handler_code x ≠ stripePaymentMethodHandler_code)
                     methods
                 ∧ fault = InternalServerError
                             ("[" +:+ loggerCtx
                              +:+ "] Could not find Stripe PaymentMethod")))).
Proof.
  unfold_handler. simpl. intros H.
  repeat case_match; simplify_eq/=.
  all: eexists; (split; [reflexivity|]).
  all: first
    [ right; split; [reflexivity|]; left; reflexivity
    | left; by eexists _, _, _, _
    | right; split; [reflexivity|]; right; eexists _, _;
      split; [reflexivity|]; split; [|reflexivity]; by apply no_stripe_of_find ].
Qed.

(** X9: a delivery calls each service operation at most once and in a fixed
    order: its calls are an initial part of verification, tenant resolution,
    transition, payment-method lookup, payment.  Nothing is retried. *)
Theorem calls_in_fixed_order (signature : option string) (rawBody : RawBody)
    (w : World) :
  calls (effects (handle signature rawBody w).2)
  `prefix_of` [CVerify; CResolve; CTransition; CFind; CAddPayment].
Proof.
  unfold_handler. simpl.
  repeat case_match; simplify_eq/=; by eexists.
Qed.

(** X10: a delivery that returns normally wrote exactly one log entry; one
    that ends in an exception wrote none. *)
Theorem one_log_entry_per_return (signature : option string) (rawBody : RawBody)
    (w : World) :
  length (List.filter is_log (effects (handle signature rawBody w).2))
  = match (handle signature rawBody w).1 with
    | Val _ => 1%nat
    | Thrown _ => 0%nat
    end.
Proof.
  unfold_handler. simpl.
  repeat case_match; simplify_eq/=; reflexivity.
Qed.

(** X11: when the channel service throws on the tenant token, the exception
    leaves the handler as it is: nothing is logged, no response is sent, the
    order service is not called and the world is untouched. *)
Theorem unknown_tenant_propagates (sig : string) (rawBody : RawBody) (event : Event)
    (paymentIntent : PaymentIntent) (w : World) (fault : Exn) :
  sig ≠ "" →
  constructEventFromPayload svc rawBody sig = Val event →
  ev_data_object event = Some (Intent paymentIntent) →
  ev_type event = "payment_intent.succeeded" →
  getChannelFromToken svc (meta paymentIntent "channelToken") w = Thrown fault →
  handle (Some sig) rawBody w
  = (Thrown fault,
     mkState w [EVerify rawBody sig (Val event);
                EResolve (meta paymentIntent "channelToken") (Thrown fault)]).
Proof.
  intros Hsig Hver Hobj Hty Hch. unfold_handler.
  rewrite (truthy_signature _ Hsig). simpl. rewrite Hver, Hobj, Hty. simpl.
  by rewrite Hch.
Qed.


(** X14: a verified event whose object has [null] metadata, whatever its
    type.  The destructuring that precedes the tests of the event type
    throws: the exception leaves the handler right after the verification,
    with nothing logged, no response sent, nothing downstream called and
    the world untouched. *)
Theorem null_metadata_throws (sig : string) (rawBody : RawBody) (event : Event)
    (id : string) (err : option LastPaymentError) (w : World) :
  sig ≠ "" →
  constructEventFromPayload svc rawBody sig = Val event →
  ev_data_object event = Some (NullMetadata id err) →
  handle (Some sig) rawBody w
  = (Thrown (TypeError destructuringErrorMessage),
     mkState w [EVerify rawBody sig (Val event)]).
Proof.
  intros Hsig Hver Hobj. unfold_handler.
  rewrite (truthy_signature _ Hsig). simpl. by rewrite Hver, Hobj.
Qed.

End Properties.

(** * The properties on the demo deployment *)

(** The failed-payment delivery of scenario B: ignored, and the warning
    contains "card_declined". *)
Lemma failed_payment_ignored_witness :
  ∃ text,
    Demo.handle true (Some Demo.good_signature) Demo.failed_event Demo.fresh
    = (Val tt,
       mkState Demo.fresh
         [EVerify Demo.failed_event Demo.good_signature (Val Demo.failed_event);
          ELog LWarn text Demo.loggerCtx])
    ∧ mentions text "card_declined".
Proof.
  destruct (failed_payment_ignored Demo.loggerCtx Demo.handler_code (Demo.services true)
              Demo.good_signature Demo.failed_event Demo.failed_event
              (Demo.intent (Some Demo.metadata_full)) Demo.fresh)
    as (text & Hrun & _ & Htext & _); [done|reflexivity|reflexivity|reflexivity|].
  exists text. split; [exact Hrun|].
  exact (Htext _ _ eq_refl eq_refl).
Defined.

(** A refund event, which the webhook is not configured for, is ignored. *)
Lemma unknown_event_ignored_witness :
  Demo.handle true (Some Demo.good_signature) Demo.refund_event Demo.fresh
  = (Val tt,
     mkState Demo.fresh
       [EVerify Demo.refund_event Demo.good_signature (Val Demo.refund_event);
        ELog LInfo "Received charge.refunded status update for order ABC"
          Demo.loggerCtx]).
Proof.
  destruct (unknown_event_ignored Demo.loggerCtx Demo.handler_code (Demo.services true)
              Demo.good_signature Demo.refund_event Demo.refund_event
              (Demo.intent (Some Demo.metadata_full)) Demo.fresh)
    as (Hrun & _); [done|reflexivity|reflexivity|done|done|].
  exact Hrun.
Defined.

(** Scenario A of the specification, end to end. *)
Example scenario_a :
  Demo.handle true (Some Demo.good_signature) Demo.succeeded_event Demo.fresh
  = (Val tt,
     mkState Demo.settled
       [EVerify Demo.succeeded_event Demo.good_signature (Val Demo.succeeded_event);
        EResolve (Some "t1") (Val "channel-1");
        ETransition Demo.system_context (Some "42") "ArrangingPayment"
          (Val (TransitionOrder tt));
        EFind Demo.system_context (Val [Demo.dummy_method; Demo.stripe_method]);
        EAddPayment Demo.system_context (Some "42") Demo.payment_input
          (Val (PaymentOrder tt));
        ELog LInfo "Stripe payment intent id pi_123 added to order ABC"
          Demo.loggerCtx]).
Proof. reflexivity. Qed.

(** An empty signature header counts as a missing one. *)
Example empty_signature_is_missing :
  Demo.handle true (Some "") Demo.succeeded_event Demo.fresh
  = Demo.handle true None Demo.succeeded_event Demo.fresh.
Proof. reflexivity. Qed.

(** C1, as the specification has it, fails: the succeeded event below has no
    order identifier in its metadata, and the handler neither answers 4xx
    nor stops before the downstream calls. *)
Lemma uncorrelated_succeeded_not_rejected :
  ev_type Demo.uncorrelated_event = "payment_intent.succeeded"
  ∧ meta (Demo.intent (Some Demo.metadata_no_order)) "orderId" = None
  ∧ ¬ (rejected
         (effects (Demo.handle true (Some Demo.good_signature)
                     Demo.uncorrelated_event Demo.fresh).2)
       ∧ Forall (λ e, is_downstream_call e = false)
           (effects (Demo.handle true (Some Demo.good_signature)
                       Demo.uncorrelated_event Demo.fresh).2)).
Proof.
  split; [reflexivity|]. split; [reflexivity|]. intros [_ Hnone].
  remember (effects _) as trace eqn:E in Hnone. vm_compute in E. subst trace.
  inversion Hnone as [|? ? _ Hrest]. inversion Hrest as [|? ? Hcall _].
  discriminate Hcall.
Qed.

(** The same delivery, read positively: tenant [t1] is resolved and the
    transition is called with no order identifier. *)
Lemma uncorrelated_succeeded_proceeds_witness :
  Forall (λ e, is_response e = false)
    (effects (Demo.handle true (Some Demo.good_signature)
                Demo.uncorrelated_event Demo.fresh).2)
  ∧ ∃ r rest,
      effects (Demo.handle true (Some Demo.good_signature)
                 Demo.uncorrelated_event Demo.fresh).2
      = EVerify Demo.uncorrelated_event Demo.good_signature
          (Val Demo.uncorrelated_event)
        :: EResolve (Some "t1") (Val "channel-1")
        :: ETransition Demo.system_context None "ArrangingPayment" r
        :: rest.
Proof.
  destruct (uncorrelated_succeeded_proceeds Demo.loggerCtx Demo.handler_code
              (Demo.services true) Demo.good_signature Demo.uncorrelated_event
              Demo.uncorrelated_event (Demo.intent (Some Demo.metadata_no_order))
              Demo.fresh)
    as (Hquiet & rest & Htrace & Hnext);
    [done|reflexivity|reflexivity|reflexivity|right; reflexivity|].
  split; [exact Hquiet|].
  destruct (Hnext "channel-1" eq_refl) as (r & rest' & ->).
  exists r, rest'. exact Htrace.
Defined.

(** C2, at a failed-payment delivery: the handler returns, and the trace
    holds the verification and the warning only.  It wrote no response, so
    no 2xx reaches the sender from it. *)
Theorem ignored_event_gets_no_response :
  Demo.handle true (Some Demo.good_signature) Demo.failed_event Demo.fresh
  = (Val tt,
     mkState Demo.fresh
       [EVerify Demo.failed_event Demo.good_signature (Val Demo.failed_event);
        ELog LWarn "Payment for order ABC failed: card_declined" Demo.loggerCtx])
  ∧ ¬ accepted
        (effects (Demo.handle true (Some Demo.good_signature)
                    Demo.failed_event Demo.fresh).2).
Proof.
  split; [reflexivity|]. intros (status & body & Hin & _).
  remember (effects _) as trace eqn:E in Hin. vm_compute in E. subst trace.
  repeat (apply elem_of_cons in Hin as [Hin|Hin]; [discriminate Hin|]).
  by apply elem_of_nil in Hin.
Qed.

(** Scenario A: the payment call comes fifth, the successful transition
    third. *)
Lemma payment_follows_transition_witness :
  ∃ (o : unit) (before1 before2 : list (Effect string unit Event)),
    [EVerify Demo.succeeded_event Demo.good_signature (Val Demo.succeeded_event);
     EResolve (Some "t1") (Val "channel-1");
     ETransition Demo.system_context (Some "42") "ArrangingPayment"
       (Val (TransitionOrder o));
     EFind Demo.system_context (Val [Demo.dummy_method; Demo.stripe_method])]
    = before1
      ++ ETransition Demo.system_context (Some "42") "ArrangingPayment"
           (Val (TransitionOrder o))
      :: before2.
Proof.
  destruct (payment_follows_transition Demo.loggerCtx Demo.handler_code
              (Demo.services true) (Some Demo.good_signature) Demo.succeeded_event
              Demo.fresh
              [EVerify Demo.succeeded_event Demo.good_signature
                 (Val Demo.succeeded_event);
               EResolve (Some "t1") (Val "channel-1");
               ETransition Demo.system_context (Some "42") "ArrangingPayment"
                 (Val (TransitionOrder tt));
               EFind Demo.system_context (Val [Demo.dummy_method; Demo.stripe_method])]
              [ELog LInfo "Stripe payment intent id pi_123 added to order ABC"
                 Demo.loggerCtx]
              (EAddPayment Demo.system_context (Some "42") Demo.payment_input
                 (Val (PaymentOrder tt))))
    as [Hpay _]; [reflexivity|].
  destruct (Hpay _ _ _ _ eq_refl) as ([] & before1 & before2 & Hsplit).
  by exists tt, before1, before2.
Defined.

(** Scenario D: only a dummy payment method is configured. *)
Lemma missing_handler_is_fatal_witness :
  Demo.handle false (Some Demo.good_signature) Demo.succeeded_event Demo.fresh
  = (Thrown (InternalServerError "[StripePlugin] Could not find Stripe PaymentMethod"),
     mkState (Demo.mkWorld "ArrangingPayment" [])
       [EVerify Demo.succeeded_event Demo.good_signature (Val Demo.succeeded_event);
        EResolve (Some "t1") (Val "channel-1");
        ETransition Demo.system_context (Some "42") "ArrangingPayment"
          (Val (TransitionOrder tt));
        EFind Demo.system_context (Val [Demo.dummy_method])]).
Proof.
  destruct (missing_handler_is_fatal Demo.loggerCtx Demo.handler_code
              (Demo.services false) Demo.good_signature Demo.succeeded_event
              Demo.succeeded_event (Demo.intent (Some Demo.metadata_full))
              Demo.fresh (Demo.mkWorld "ArrangingPayment" []) "channel-1" tt
              [Demo.dummy_method])
    as [Hrun _];
    [done|reflexivity|reflexivity|reflexivity|reflexivity|reflexivity|reflexivity
    |repeat constructor; done|].
  exact Hrun.
Defined.

(** The payment is refused on an order that already carries it: the order
    stays in [ArrangingPayment], where the transition put it. *)
Lemma payment_error_leaves_order_witness :
  ∃ text,
    Demo.handle true (Some Demo.good_signature) Demo.succeeded_event Demo.reopened
    = (Val tt,
       mkState (Demo.mkWorld "ArrangingPayment" ["pi_123"])
         [EVerify Demo.succeeded_event Demo.good_signature (Val Demo.succeeded_event);
          EResolve (Some "t1") (Val "channel-1");
          ETransition Demo.system_context (Some "42") "ArrangingPayment"
            (Val (TransitionOrder tt));
          EFind Demo.system_context (Val [Demo.dummy_method; Demo.stripe_method]);
          EAddPayment Demo.system_context (Some "42") Demo.payment_input
            (Val (AddPaymentError "Payment already recorded"));
          ELog LError text Demo.loggerCtx])
    ∧ mentions text "Payment already recorded".
Proof.
  destruct (payment_error_leaves_order Demo.loggerCtx Demo.handler_code
              (Demo.services true) Demo.good_signature Demo.succeeded_event
              Demo.succeeded_event (Demo.intent (Some Demo.metadata_full))
              Demo.reopened (Demo.mkWorld "ArrangingPayment" ["pi_123"])
              (Demo.mkWorld "ArrangingPayment" ["pi_123"]) "channel-1" tt
              [Demo.dummy_method; Demo.stripe_method] Demo.stripe_method
              "Payment already recorded")
    as (text & Hrun & _ & Htext);
    [done|reflexivity|reflexivity|reflexivity|reflexivity|reflexivity|reflexivity
    |reflexivity|reflexivity|].
  exists text. by split.
Defined.

(** The context handed to the payment-method lookup in scenario A. *)
Lemma context_is_administrative_witness :
  apiType Demo.system_context = admin
  ∧ isAuthorized Demo.system_context = true
  ∧ authorizedAsOwnerOnly Demo.system_context = false.
Proof.
  destruct (context_is_administrative Demo.loggerCtx Demo.handler_code
              (Demo.services true) (Some Demo.good_signature) Demo.succeeded_event
              Demo.fresh
              [EVerify Demo.succeeded_event Demo.good_signature
                 (Val Demo.succeeded_event)]
              [ETransition Demo.system_context (Some "42") "ArrangingPayment"
                 (Val (TransitionOrder tt));
               EFind Demo.system_context (Val [Demo.dummy_method; Demo.stripe_method]);
               EAddPayment Demo.system_context (Some "42") Demo.payment_input
                 (Val (PaymentOrder tt));
               ELog LInfo "Stripe payment intent id pi_123 added to order ABC"
                 Demo.loggerCtx]
              (Some "t1") "channel-1")
    as [_ Hused]; [reflexivity|].
  destruct (Hused (EFind Demo.system_context
                     (Val [Demo.dummy_method; Demo.stripe_method]))
              Demo.system_context) as (Ha & Hb & Hc & _).
  - apply list_elem_of_further, list_elem_of_here.
  - apply list_elem_of_here.
  - by split.
Defined.

(** The demo order service keeps the contract of the duplicate-delivery
    theorem: once the payment is recorded, the transition and the payment
    return a result and leave the recorded payments alone. *)
Lemma demo_transition_repeatable (ctx : Demo.ctx_t) (orderId : option string)
    (state : string) (v : Demo.World) :
  "pi_123" ∈ Demo.payment_ids v →
  ∃ r v', Demo.transition ctx orderId state v = (Val r, v')
          ∧ "pi_123" ∈ Demo.payment_ids v'
          ∧ Demo.payment_ids v' = Demo.payment_ids v.
Proof.
  intros Hpaid. unfold Demo.transition.
  destruct (_ || _); eexists _, _; (split; [reflexivity|]); by split.
Qed.

Lemma demo_payment_repeatable (ctx : Demo.ctx_t) (orderId : option string)
    (v : Demo.World) :
  "pi_123" ∈ Demo.payment_ids v →
  ∃ r v', Demo.add_payment ctx orderId Demo.payment_input v = (Val r, v')
          ∧ Demo.payment_ids v' = Demo.payment_ids v.
Proof.
  intros Hpaid. unfold Demo.add_payment. simpl.
  rewrite bool_decide_eq_true_2 by exact Hpaid. by eexists _, _.
Qed.

(** Scenario A delivered twice to the demo order service. *)
Lemma duplicate_delivery_is_harmless_witness :
  (∃ trace,
     Demo.handle true (Some Demo.good_signature) Demo.succeeded_event Demo.fresh
     = (Val tt, mkState Demo.settled trace)
     ∧ last trace
       = Some (ELog LInfo "Stripe payment intent id pi_123 added to order ABC"
                 Demo.loggerCtx))
  ∧ (∃ w3 trace level text,
       Demo.handle true (Some Demo.good_signature) Demo.succeeded_event Demo.settled
       = (Val tt, mkState w3 trace)
       ∧ last trace = Some (ELog level text Demo.loggerCtx)
       ∧ Demo.payment_ids w3 = ["pi_123"]).
Proof.
  apply (duplicate_delivery_is_harmless Demo.loggerCtx Demo.handler_code
           (Demo.services true) Demo.payment_ids
           (λ v, "pi_123" ∈ Demo.payment_ids v)
           Demo.good_signature Demo.succeeded_event Demo.succeeded_event
           (Demo.intent (Some Demo.metadata_full))
           Demo.fresh (Demo.mkWorld "ArrangingPayment" []) Demo.settled
           "channel-1" tt tt [Demo.dummy_method; Demo.stripe_method]
           Demo.stripe_method).
  - done.
  - reflexivity.
  - reflexivity.
  - reflexivity.
  - reflexivity.
  - reflexivity.
  - reflexivity.
  - reflexivity.
  - reflexivity.
  - apply list_elem_of_here.
  - intros v _. by split.
  - intros v Hpaid. apply demo_transition_repeatable, Hpaid.
  - intros v Hpaid. apply demo_payment_repeatable, Hpaid.
Defined.

(** ** The further properties on the demo deployment *)

(** A delivery signed "bad": the verifier's message ends up in the log. *)
Lemma bad_signature_rejected_witness :
  Demo.handle true (Some "bad") Demo.succeeded_event Demo.fresh
  = (Val tt,
     mkState Demo.fresh
       [EVerify Demo.succeeded_event "bad"
          (Thrown (ServiceFault "No signatures found matching the expected signature"));
        ELog LError
          "Error verifying Stripe webhook signature bad: No signatures found matching the expected signature"
          Demo.loggerCtx;
        ERespond 400 "Error verifying Stripe webhook signature"]).
Proof.
  apply (bad_signature_rejected Demo.loggerCtx Demo.handler_code (Demo.services true)
           "bad" Demo.succeeded_event
           (ServiceFault "No signatures found matching the expected signature")
           Demo.fresh).
  - done.
  - reflexivity.
Defined.

(** Scenario C: a verified event with no [data.object]. *)
Lemma no_payment_intent_rejected_witness :
  Demo.handle true (Some Demo.good_signature) Demo.empty_event Demo.fresh
  = (Val tt,
     mkState Demo.fresh
       [EVerify Demo.empty_event Demo.good_signature (Val Demo.empty_event);
        ELog LError "No payment intent in the event payload" Demo.loggerCtx;
        ERespond 400 "No payment intent in the event payload"]).
Proof.
  apply (no_payment_intent_rejected Demo.loggerCtx Demo.handler_code
           (Demo.services true) Demo.good_signature Demo.empty_event
           Demo.empty_event Demo.fresh).
  - done.
  - reflexivity.
  - reflexivity.
Defined.

(** Scenario A: the dummy method comes first in the repository and is passed
    over. *)
Lemma succeeded_payment_recorded_witness :
  Demo.handle true (Some Demo.good_signature) Demo.succeeded_event Demo.fresh
  = (Val tt,
     mkState Demo.settled
       [EVerify Demo.succeeded_event Demo.good_signature (Val Demo.succeeded_event);
        EResolve (Some "t1") (Val "channel-1");
        ETransition Demo.system_context (Some "42") "ArrangingPayment"
          (Val (TransitionOrder tt));
        EFind Demo.system_context (Val [Demo.dummy_method; Demo.stripe_method]);
        EAddPayment Demo.system_context (Some "42") Demo.payment_input
          (Val (PaymentOrder tt));
        ELog LInfo "Stripe payment intent id pi_123 added to order ABC"
          Demo.loggerCtx]).
Proof.
  apply (succeeded_payment_recorded Demo.loggerCtx Demo.handler_code
           (Demo.services true) Demo.good_signature Demo.succeeded_event
           Demo.succeeded_event (Demo.intent (Some Demo.metadata_full))
           Demo.fresh (Demo.mkWorld "ArrangingPayment" []) Demo.settled
           "channel-1" tt tt [Demo.dummy_method] [] Demo.stripe_method).
  - done.
  - reflexivity.
  - reflexivity.
  - reflexivity.
  - reflexivity.
  - reflexivity.
  - reflexivity.
  - repeat constructor. done.
  - reflexivity.
  - reflexivity.
Defined.

(** The lookup on the demo repository returns the Stripe method, the second
    of the two. *)
Lemma getPaymentMethod_first_match_witness :
  getPaymentMethod Demo.loggerCtx Demo.handler_code (Demo.services true)
    Demo.system_context (mkState Demo.fresh [])
  = (Val Demo.stripe_method,
     mkState Demo.fresh
       [EFind Demo.system_context (Val [Demo.dummy_method; Demo.stripe_method])]).
Proof.
  apply (proj2 (getPaymentMethod_first_match Demo.loggerCtx Demo.handler_code
                  (Demo.services true) Demo.system_context (mkState Demo.fresh [])
                  (mkState Demo.fresh
                     [EFind Demo.system_context
                        (Val [Demo.dummy_method; Demo.stripe_method])])
                  Demo.stripe_method)).
  exists [Demo.dummy_method], []. split; [reflexivity|]. split.
  - repeat constructor. done.
  - by split.
Defined.

(** The response to the delivery signed "bad". *)
Lemma response_is_final_rejection_witness :
  (Demo.handle true (Some "bad") Demo.succeeded_event Demo.fresh).1 = Val tt
  ∧ world (Demo.handle true (Some "bad") Demo.succeeded_event Demo.fresh).2
    = Demo.fresh
  ∧ last (effects (Demo.handle true (Some "bad") Demo.succeeded_event Demo.fresh).2)
    = Some (ERespond 400 "Error verifying Stripe webhook signature").
Proof.
  destruct (response_is_final_rejection Demo.loggerCtx Demo.handler_code
              (Demo.services true) (Some "bad") Demo.succeeded_event Demo.fresh
              400 "Error verifying Stripe webhook signature")
    as (_ & _ & Hret & Hworld & Hlast & _).
  - do 2 apply list_elem_of_further. apply list_elem_of_here.
  - by repeat split.
Defined.

(** The stranger's delivery ends in the channel service's exception, thrown
    by the last call of the trace. *)
Lemma exception_comes_from_last_call_witness :
  ∃ final,
    last (effects (Demo.handle true (Some Demo.good_signature) Demo.stranger_event
                     Demo.fresh).2) = Some final
    ∧ is_downstream_call final = true
    ∧ thrown_by final = Some (ServiceFault "channel not found").
Proof.
  destruct (exception_comes_from_last_call Demo.loggerCtx Demo.handler_code
              (Demo.services true) (Some Demo.good_signature) Demo.stranger_event
              Demo.fresh (ServiceFault "channel not found"))
    as (final & Hlast & Hfrom); [reflexivity|].
  exists final. split; [exact Hlast|].
  destruct Hfrom
    as [(sig & event & id & err & _ & _ & Hfault)
       |(Hcall & [Hthrown|(ctx & methods & _ & _ & Hfault)])];
    [discriminate Hfault | by split | discriminate Hfault].
Defined.

(** The stranger's delivery, in full. *)
Lemma unknown_tenant_propagates_witness :
  Demo.handle true (Some Demo.good_signature) Demo.stranger_event Demo.fresh
  = (Thrown (ServiceFault "channel not found"),
     mkState Demo.fresh
       [EVerify Demo.stranger_event Demo.good_signature (Val Demo.stranger_event);
        EResolve (Some "t9") (Thrown (ServiceFault "channel not found"))]).
Proof.
  etrans.
  - apply (unknown_tenant_propagates Demo.loggerCtx Demo.handler_code
             (Demo.services true) Demo.good_signature Demo.stranger_event
             Demo.stranger_event
             (Demo.intent (Some (<["channelToken" := "t9"]> Demo.metadata_full)))
             Demo.fresh (ServiceFault "channel not found"));
      [done|reflexivity|reflexivity|reflexivity|reflexivity].
  - reflexivity.
Defined.


(** C6, at an event of an unknown type whose object has [null] metadata:
    the destructuring of the metadata comes before the tests of the event
    type and throws.  The handler does not get to the info entry: the trace
    holds the verification only, and the delivery ends in the exception
    instead of being ignored. *)
Theorem unknown_event_with_null_metadata_throws :
  ev_type Demo.invoice_event ≠ "payment_intent.succeeded"
  ∧ ev_type Demo.invoice_event ≠ "payment_intent.payment_failed"
  ∧ Demo.handle true (Some Demo.good_signature) Demo.invoice_event Demo.fresh
    = (Thrown (TypeError destructuringErrorMessage),
       mkState Demo.fresh
         [EVerify Demo.invoice_event Demo.good_signature (Val Demo.invoice_event)])
  ∧ Forall (λ e, is_log e = false)
      (effects (Demo.handle true (Some Demo.good_signature) Demo.invoice_event
                  Demo.fresh).2).
Proof.
  split; [done|]. split; [done|]. split; [reflexivity|].
  remember (effects _) as trace eqn:E. vm_compute in E. subst trace.
  repeat constructor.
Qed.

(** The invoice event again, through the general statement. *)
Lemma null_metadata_throws_witness :
  Demo.handle true (Some Demo.good_signature) Demo.invoice_event Demo.fresh
  = (Thrown (TypeError destructuringErrorMessage),
     mkState Demo.fresh
       [EVerify Demo.invoice_event Demo.good_signature (Val Demo.invoice_event)]).
Proof.
  apply (null_metadata_throws Demo.loggerCtx Demo.handler_code (Demo.services true)
           Demo.good_signature Demo.invoice_event Demo.invoice_event "in_123" None
           Demo.fresh).
  - done.
  - reflexivity.
  - reflexivity.
Defined.
